(** * jarvisV0: the chat screen of [src/frontend/App.tsx]

    A shallow embedding of the [App] function component: its five
    [useState] cells, the closures every render creates over them, the
    calls those closures make to the outside (fetch, Alert, Tts, Voice,
    timers, the clock) and the suspension points of its [async] functions.

    Strings are Rocq strings read as sequences of code units below 256.

    React semantics kept by the model:
    - a render binds [messages], [isListening], [manualText],
      [voiceOutputEnabled] and [isSending] as constants; every handler of
      that render reads these constants, never the store;
    - a setter writes the store; [set(prev => f prev)] applies [f] to the
      store's value, [set(v)] overwrites it;
    - after every handler the component renders again, so a press always
      runs the handler of the render that shows the store as it is;
    - an [async] function runs to its first [await] inside the caller and
      resumes later, still inside the closure it started in. *)

From Stdlib Require Import String Ascii List Bool ZArith NArith QArith Lia.
From Stdlib Require Import DecimalString DecimalZ Sorted.
Import ListNotations.
Local Open Scope string_scope.
Local Open Scope list_scope.
Local Open Scope Z_scope.
Set Warnings "-register-all".

(* ------------------------------------------------------------------ *)
(** ** JavaScript values *)

(** A Number: a finite double by its exact value, or an infinity
    ([JSON.parse] overflows to it; it never yields NaN). *)
Inductive number :=
| Finite (q : Q)
| Infinity (negative : bool).

(** What [response.json()] can resolve to, and [undefined] for a property
    that is not there.  An object lists its properties in the order of the
    JSON text. *)
Inductive value :=
| VUndefined
| VNull
| VBool (b : bool)
| VNum (n : number)
| VStr (s : string)
| VArr (items : list value)
| VObj (props : list (string * value)).

(** ToBoolean, the test of [if (x)]. *)
Definition truthy (v : value) : bool :=
  match v with
  | VUndefined | VNull => false
  | VBool b => b
  | VNum (Finite q) => negb (Qnum q =? 0)
  | VNum (Infinity _) => true
  | VStr s => negb (s =? "")%string
  | VArr _ | VObj _ => true
  end.

(** A repeated key of the JSON text keeps its last value. *)
Fixpoint lookup_prop (k : string) (props : list (string * value)) : option value :=
  match props with
  | [] => None
  | (k', v) :: rest =>
      match lookup_prop k rest with
      | Some v' => Some v'
      | None => if (k =? k')%string then Some v else None
      end
  end.

(** [x.k]: a TypeError on [null] and [undefined], the property of an
    object, [undefined] on anything else. *)
Definition get_prop (x : value) (k : string) : option value :=
  match x with
  | VUndefined | VNull => None
  | VObj props =>
      match lookup_prop k props with
      | Some v => Some v
      | None => Some VUndefined
      end
  | _ => Some VUndefined
  end.

(* ------------------------------------------------------------------ *)
(** ** String.prototype.trim *)

(** WhiteSpace and LineTerminator below 256: TAB, LF, VT, FF, CR, SP, NBSP. *)
Definition is_ws (c : ascii) : bool :=
  let n := nat_of_ascii c in
  ((9 <=? n) && (n <=? 13) || (n =? 32) || (n =? 160))%nat.

Fixpoint trimStart (s : string) : string :=
  match s with
  | EmptyString => EmptyString
  | String c s' => if is_ws c then trimStart s' else s
  end.

Fixpoint trimEnd (s : string) : string :=
  match s with
  | EmptyString => EmptyString
  | String c s' =>
      match trimEnd s' with
      | EmptyString => if is_ws c then EmptyString else String c EmptyString
      | t => String c t
      end
  end.

Definition trim (s : string) : string := trimEnd (trimStart s).

(** Empty or made of white space only. *)
Fixpoint blank (s : string) : bool :=
  match s with
  | EmptyString => true
  | String c s' => is_ws c && blank s'
  end.

(** [n.toString()] of an integer. *)
Definition toString (n : Z) : string := NilZero.string_of_int (Z.to_int n).

(* ------------------------------------------------------------------ *)
(** ** Messages and component state *)

Inductive Sender := user | llm.

(** [type Message = { id; text; sender }].  [text] is declared a string,
    but [data] is untyped and [data.answer] is stored unchecked, so the
    field holds whatever value the response carried. *)
Record Message := mkMessage {
  id : string;
  text : value;
  sender : Sender
}.

(** The [useState] cells of [App]; as a render's bindings, the constants
    its closures see. *)
Record State := mkState {
  messages : list Message;
  isListening : bool;
  manualText : string;
  voiceOutputEnabled : bool;
  isSending : bool
}.

Definition initial : State :=
  {| messages := []; isListening := false; manualText := "";
     voiceOutputEnabled := false; isSending := false |}.

(** Every call a handler makes, in program order: setters and the calls
    to the outside. *)
Inductive Event :=
| SetMessagesAppend (m : Message)
| SetIsListening (b : bool)
| SetManualText (s : string)
| SetVoiceOutputEnabledNot
| SetIsSending (b : bool)
| SetTimeoutScroll (ms : Z)
| Fetch (url method contentType prompt model : string)
| TtsSpeak (v : value)
| AlertAlert (title message : string)
| ConsoleLog (label : string)
| ConsoleError (label : string)
| PermissionsRequest
| VoiceStart (locale : string)
| VoiceStop.

Record World := mkWorld {
  store : State;
  trace : list Event
}.

(* ------------------------------------------------------------------ *)
(** ** Handlers as computations over the world *)

Inductive Error :=
| TypeError
| Rejected (what : string).

Inductive Result (A : Type) :=
| Ok (a : A)
| Throw (e : Error).
Arguments Ok {A} a.
Arguments Throw {A} e.

Definition M (A : Type) : Type := World -> Result A * World.

Definition ret {A} (a : A) : M A := fun w => (Ok a, w).

Definition throw {A} (e : Error) : M A := fun w => (Throw e, w).

Definition bind {A B} (m : M A) (k : A -> M B) : M B :=
  fun w =>
    match m w with
    | (Ok a, w') => k a w'
    | (Throw e, w') => (Throw e, w')
    end.

Declare Scope js_scope.
Delimit Scope js_scope with js.
Notation "x <- m ;; k" := (bind m (fun x => k))
  (at level 61, m at next level, right associativity) : js_scope.
Notation "m ;; k" := (bind m (fun _ => k))
  (at level 61, right associativity) : js_scope.
Local Open Scope js_scope.

(** [try { body } catch (e) { handler e }]. *)
Definition try_catch {A} (body : M A) (handler : Error -> M A) : M A :=
  fun w =>
    match body w with
    | (Ok a, w') => (Ok a, w')
    | (Throw e, w') => handler e w'
    end.

(** [try { body } catch (e) { handler e } finally { fin }]: [fin] runs
    last on both paths. *)
Definition try_catch_finally {A} (body : M A) (handler : Error -> M A)
    (fin : M unit) : M A :=
  fun w =>
    let (r, w') := try_catch body handler w in
    match fin w' with
    | (Ok _, w'') => (r, w'')
    | (Throw e, w'') => (Throw e, w'')
    end.

(** What a setter does to the store; the other calls leave it alone. *)
Definition write (e : Event) (s : State) : State :=
  match e with
  | SetMessagesAppend m =>
      mkState (messages s ++ [m]) (isListening s) (manualText s)
              (voiceOutputEnabled s) (isSending s)
  | SetIsListening b =>
      mkState (messages s) b (manualText s) (voiceOutputEnabled s) (isSending s)
  | SetManualText t =>
      mkState (messages s) (isListening s) t (voiceOutputEnabled s) (isSending s)
  | SetVoiceOutputEnabledNot =>
      mkState (messages s) (isListening s) (manualText s)
              (negb (voiceOutputEnabled s)) (isSending s)
  | SetIsSending b =>
      mkState (messages s) (isListening s) (manualText s) (voiceOutputEnabled s) b
  | _ => s
  end.

Definition call (e : Event) : M unit :=
  fun w => (Ok tt, mkWorld (write e (store w)) (trace w ++ [e])).

(** [await p] where the promise settles as [r]. *)
Definition await {A} (r : Result A) : M A := fun w => (r, w).

Definition exec {A} (m : M A) (w : World) : World := snd (m w).

(* ------------------------------------------------------------------ *)
(** ** addMessage *)

(** [now] is what [Date.now()] returns at the call. *)
Definition addMessage (text : value) (sender : Sender) (now : Z) : M unit :=
  let newMessage := {| id := toString now; text := text; sender := sender |} in
  call (SetMessagesAppend newMessage) ;;
  call (SetTimeoutScroll 100).

(* ------------------------------------------------------------------ *)
(** ** sendToBackend *)

(** How the request ends: [fetch] rejects, or resolves with a response
    whose [json()] resolves to a value or rejects.  [status] is carried by
    the response; [fetch] resolves whatever it is. *)
Record Response := mkResponse {
  status : Z;
  json : Result value
}.

Definition FetchResult : Type := Result Response.

Definition ok (r : Response) : bool := (200 <=? status r) && (status r <=? 299).

Definition endpoint : string := "http://192.168.0.189:8000/ask".

(** Up to the first [await]: runs inside the caller. *)
Definition sendToBackend_dispatch (text : string) : M unit :=
  call (SetIsSending true) ;;
  call (Fetch endpoint "POST" "application/json" text "gpt-3.5-turbo").

(** From the first [await] to the end.  [r] is the render whose closure
    this is: [voiceOutputEnabled] below is that render's constant.
    [data.answer] is read once here; the source reads it again at each
    use, with the same result. *)
Definition sendToBackend_settle (r : State) (res : FetchResult) (now : Z) : M unit :=
  try_catch_finally
    (response <- await res ;;
     data <- await (json response) ;;
     answer <- match get_prop data "answer" with
               | Some v => ret v
               | None => throw TypeError
               end ;;
     if truthy answer then
       addMessage answer llm now ;;
       if voiceOutputEnabled r then call (TtsSpeak answer) else ret tt
     else
       addMessage (VStr "No response from LLM.") llm now)
    (fun error =>
       call (ConsoleError "Error sending to LLM:") ;;
       call (AlertAlert "Error" "Failed to get response from the server."))
    (call (SetIsSending false)).

(* ------------------------------------------------------------------ *)
(** ** handleSend and the send button *)

(** A [sendToBackend] suspended at its [await]: the render it closes over
    and its argument. *)
Record Pending := mkPending {
  p_render : State;
  p_text : string
}.

Definition handleSend (r : State) (now : Z) : M (option Pending) :=
  let textToSend := trim (manualText r) in
  if (textToSend =? "")%string then
    call (AlertAlert "Input Required" "Please enter some text.") ;;
    ret None
  else
    addMessage (VStr textToSend) user now ;;
    call (SetManualText "") ;;
    sendToBackend_dispatch textToSend ;;
    ret (Some (mkPending r textToSend)).

(** [disabled={isSending}] on the send button. *)
Definition sendButton_disabled (r : State) : bool := isSending r.

(** A press on the send button of render [r]: a disabled touchable does
    not call [onPress]. *)
Definition pressSend (r : State) (now : Z) : M (option Pending) :=
  if sendButton_disabled r then ret None else handleSend r now.

(* ------------------------------------------------------------------ *)
(** ** Voice handlers (registered once by the effect) *)

(** [SpeechResultsEvent]: [value?: string[]]. *)
Record SpeechResultsEvent := mkResults {
  r_value : option (list string)
}.

(** [SpeechErrorEvent], as the handler reads it: [e.error.message]. *)
Record SpeechErrorEvent := mkSpeechError {
  error_message : string
}.

Definition onSpeechStart : M unit := call (SetIsListening true).

Definition onSpeechEnd : M unit := call (SetIsListening false).

Definition onSpeechResults (e : SpeechResultsEvent) : M unit :=
  match r_value e with
  | Some (recognizedText :: _) =>
      if negb (recognizedText =? "")%string
      then call (SetManualText recognizedText)
      else ret tt
  | _ => ret tt
  end.

Definition onSpeechError (e : SpeechErrorEvent) : M unit :=
  call (ConsoleLog "onSpeechError") ;;
  call (SetIsListening false) ;;
  call (AlertAlert "Speech Recognition Error" (error_message e)).

(* ------------------------------------------------------------------ *)
(** ** toggleListening *)

(** [PermissionsAndroid.RESULTS]. *)
Inductive PermissionStatus := GRANTED | DENIED | NEVER_ASK_AGAIN.

(** What the outside answers while [toggleListening] runs: the platform,
    the permission dialog, and how [Voice.stop()] and [Voice.start()]
    settle. *)
Record MicEnv := mkMicEnv {
  platformOS : string;
  granted : PermissionStatus;
  stopResult : Result unit;
  startResult : Result unit
}.

Definition requestMicrophonePermission (env : MicEnv) : M bool :=
  if (platformOS env =? "android")%string then
    call PermissionsRequest ;;
    ret match granted env with GRANTED => true | _ => false end
  else ret true.

Definition toggleListening (r : State) (env : MicEnv) : M unit :=
  if isListening r then
    try_catch
      (call VoiceStop ;; await (stopResult env))
      (fun e => call (ConsoleError "Voice.stop error:"))
  else
    hasPermission <- requestMicrophonePermission env ;;
    if hasPermission then
      try_catch
        (call (VoiceStart "en-US") ;; await (startResult env))
        (fun e => call (ConsoleError "Voice.start error:"))
    else ret tt.

(* ------------------------------------------------------------------ *)
(** ** The session: everything that can happen to the screen *)

Record Session := mkSession {
  world : World;
  inflight : list Pending
}.

Definition start : Session := mkSession (mkWorld initial []) [].

Inductive Input :=
| PressSend (now : Z)
| PressSpeaker
| PressMic (env : MicEnv)
| ChangeText (s : string)
| SpeechStart
| SpeechEnd
| SpeechResults (e : SpeechResultsEvent)
| SpeechError (e : SpeechErrorEvent)
| FetchSettles (i : nat) (res : FetchResult) (now : Z).

Fixpoint remove_nth {A} (i : nat) (l : list A) : list A :=
  match l, i with
  | [], _ => []
  | _ :: l', O => l'
  | x :: l', S i' => x :: remove_nth i' l'
  end.

(** One input.  A press runs the handler of the current render, whose
    constants are the store's values; a settling request resumes the
    closure it was dispatched from. *)
Definition step (sn : Session) (i : Input) : Session :=
  let w := world sn in
  let r := store w in
  match i with
  | PressSend now =>
      match pressSend r now w with
      | (Ok (Some p), w') => mkSession w' (inflight sn ++ [p])
      | (_, w') => mkSession w' (inflight sn)
      end
  | PressSpeaker => mkSession (exec (call SetVoiceOutputEnabledNot) w) (inflight sn)
  | PressMic env => mkSession (exec (toggleListening r env) w) (inflight sn)
  | ChangeText s => mkSession (exec (call (SetManualText s)) w) (inflight sn)
  | SpeechStart => mkSession (exec onSpeechStart w) (inflight sn)
  | SpeechEnd => mkSession (exec onSpeechEnd w) (inflight sn)
  | SpeechResults e => mkSession (exec (onSpeechResults e) w) (inflight sn)
  | SpeechError e => mkSession (exec (onSpeechError e) w) (inflight sn)
  | FetchSettles k res now =>
      match nth_error (inflight sn) k with
      | Some p =>
          mkSession (exec (sendToBackend_settle (p_render p) res now) w)
                    (remove_nth k (inflight sn))
      | None => sn
      end
  end.

Definition run (sn : Session) (inputs : list Input) : Session :=
  fold_left step inputs sn.

(* ------------------------------------------------------------------ *)
(** ** Reading a trace *)

Definition appended (l : list Event) : list Message :=
  flat_map (fun e => match e with SetMessagesAppend m => [m] | _ => [] end) l.

Definition spoken (l : list Event) : list value :=
  flat_map (fun e => match e with TtsSpeak v => [v] | _ => [] end) l.

Definition alerts (l : list Event) : list (string * string) :=
  flat_map (fun e => match e with AlertAlert t m => [(t, m)] | _ => [] end) l.

Definition fetches (l : list Event) : list string :=
  flat_map (fun e => match e with Fetch _ _ _ p _ => [p] | _ => [] end) l.

(** A call that hands the outcome of a request to the user: the
    transcript append, the spoken answer or the error dialog. *)
Definition delivers (e : Event) : bool :=
  match e with
  | SetMessagesAppend _ | TtsSpeak _ | AlertAlert _ _ => true
  | _ => false
  end.

Definition resets_sending (e : Event) : bool :=
  match e with
  | SetIsSending false => true
  | _ => false
  end.

(** Position of the first event satisfying [p]. *)
Fixpoint index_of (p : Event -> bool) (l : list Event) : option nat :=
  match l with
  | [] => None
  | e :: l' => if p e then Some O else option_map S (index_of p l')
  end.

(** The events a computation adds to the trace when run on an empty one. *)
Definition calls {A} (m : M A) (s : State) : list Event :=
  trace (exec m (mkWorld s [])).

(** The reset of the flag comes before the first delivery. *)
Definition reset_precedes_delivery (l : list Event) : bool :=
  match index_of resets_sending l, index_of delivers l with
  | Some i, Some j => (i <? j)%nat
  | _, _ => false
  end.

(** When the [try] block of [sendToBackend] throws: [fetch] rejects,
    [response.json()] rejects, or [data] is [null]. *)
Definition request_fails (res : FetchResult) : bool :=
  match res with
  | Throw _ => true
  | Ok response =>
      match json response with
      | Throw _ => true
      | Ok data =>
          match get_prop data "answer" with
          | None => true
          | Some _ => false
          end
      end
  end.

(** An answering response: status 200, body [{"answer": s}]. *)
Definition answers (s : string) : FetchResult :=
  Ok (mkResponse 200 (Ok (VObj [("answer", VStr s)]))).

(* ------------------------------------------------------------------ *)
(** ** Reading a transcript and a run of inputs *)

Definition is_user (m : Message) : bool :=
  match sender m with user => true | llm => false end.

(** Is the last message of [l] from [user]; [b] when [l] is empty. *)
Fixpoint last_is_user (b : bool) (l : list Message) : bool :=
  match l with
  | [] => b
  | m :: l' => last_is_user (is_user m) l'
  end.

(** Every [llm] message of [l] comes right after a [user] message; [b]
    says whether a [user] message stands right before [l]. *)
Fixpoint answers_follow_questions (b : bool) (l : list Message) : bool :=
  match l with
  | [] => true
  | m :: l' =>
      if is_user m then answers_follow_questions true l'
      else b && answers_follow_questions false l'
  end.

(** The texts of the [user] messages, in transcript order. *)
Definition user_texts (l : list Message) : list value :=
  map text (filter is_user l).

(** The events the recognition engine raises about listening. *)
Definition engine_event (i : Input) : bool :=
  match i with
  | SpeechStart | SpeechEnd | SpeechError _ => true
  | _ => false
  end.

Definition is_speaker_press (i : Input) : bool :=
  match i with
  | PressSpeaker => true
  | _ => false
  end.

(** The clock readings an input carries. *)
Definition reading (i : Input) : list Z :=
  match i with
  | PressSend now => [now]
  | FetchSettles _ _ now => [now]
  | _ => []
  end.

Definition readings (inputs : list Input) : list Z := flat_map reading inputs.

Definition starts_ws (s : string) : bool :=
  match s with
  | EmptyString => false
  | String c _ => is_ws c
  end.

Fixpoint ends_ws (s : string) : bool :=
  match s with
  | EmptyString => false
  | String c EmptyString => is_ws c
  | String _ s' => ends_ws s'
  end.

(** The message [handleSend] builds for the text [t] at clock [now]. *)
Definition user_message (t : string) (now : Z) : Message :=
  mkMessage (toString now) (VStr t) user.

(** The request [sendToBackend] makes for the prompt [t]. *)
Definition ask (t : string) : Event :=
  Fetch endpoint "POST" "application/json" t "gpt-3.5-turbo".

(** The calls of the [catch] block of [sendToBackend]. *)
Definition failure_report : list Event :=
  [ConsoleError "Error sending to LLM:";
   AlertAlert "Error" "Failed to get response from the server."].

(** What holds of every session the screen can reach: a request is in
    flight exactly while [isSending] is true, never two; while one is in
    flight the transcript ends with the question it carries; answers
    follow questions; the prompts sent are the [user] texts. *)
Definition consistent (sn : Session) : Prop :=
  let s := store (world sn) in
  ((inflight sn = [] /\ isSending s = false) \/
   (exists p, inflight sn = [p] /\ isSending s = true /\
              last_is_user false (messages s) = true)) /\
  answers_follow_questions false (messages s) = true /\
  map VStr (fetches (trace (world sn))) = user_texts (messages s).

(* ================================================================== *)
(** * Properties *)

(** Unfold a handler down to the world it returns. *)
Ltac run_js :=
  cbv [sendToBackend_settle sendToBackend_dispatch handleSend pressSend
       sendButton_disabled addMessage onSpeechError onSpeechStart onSpeechEnd
       toggleListening requestMicrophonePermission
       try_catch_finally try_catch bind ret throw await call exec calls];
  cbn [fst snd store trace write messages isListening manualText
       voiceOutputEnabled isSending json status].

Ltac flatten_trace :=
  cbn [fst snd store trace write messages isListening manualText
       voiceOutputEnabled isSending];
  rewrite <- ?app_assoc; cbn [app].

Lemma addMessage_spec (t : value) (sd : Sender) (now : Z) (w : World) :
  addMessage t sd now w =
  (Ok tt,
   mkWorld (write (SetMessagesAppend (mkMessage (toString now) t sd)) (store w))
           (trace w ++ [SetMessagesAppend (mkMessage (toString now) t sd);
                        SetTimeoutScroll 100])).
Proof. run_js. flatten_trace. reflexivity. Qed.

Lemma trimStart_blank (s : string) : blank s = true -> trimStart s = "".
Proof.
  induction s as [|c s IH]; cbn [blank trimStart]; [reflexivity|].
  intros H. apply andb_true_iff in H as [Hc Hs]. rewrite Hc. auto.
Qed.

Lemma trim_blank (s : string) : blank s = true -> trim s = "".
Proof. intros H. unfold trim. rewrite trimStart_blank by exact H. reflexivity. Qed.

(** Distinct clock readings print as distinct ids. *)
Lemma toString_inj (a b : Z) : toString a = toString b -> a = b.
Proof.
  unfold toString. intros H.
  apply DecimalZ.to_int_inj.
  assert (Hnn : forall z, Z.to_int z <> Decimal.Pos Decimal.Nil /\
                          Z.to_int z <> Decimal.Neg Decimal.Nil).
  { intros z. destruct z as [|p|p]; cbn; split; try discriminate;
      intros E; injection E as E;
      exact (DecimalPos.Unsigned.to_uint_nonnil p E). }
  pose proof (NilZero.isi (Z.to_int a) (proj1 (Hnn a)) (proj2 (Hnn a))) as Ha.
  pose proof (NilZero.isi (Z.to_int b) (proj1 (Hnn b)) (proj2 (Hnn b))) as Hb.
  rewrite H in Ha. rewrite Ha in Hb. now injection Hb.
Qed.

(** The speak decision of a settling request is the dispatching render's
    [voiceOutputEnabled]; the store is not consulted. *)
Lemma settle_speaks_by_closure (r : State) (w : World) (now st : Z)
    (props : list (string * value)) (v : value) :
  lookup_prop "answer" props = Some v ->
  truthy v = true ->
  spoken (calls (sendToBackend_settle r (Ok (mkResponse st (Ok (VObj props)))) now)
                (store w))
  = if voiceOutputEnabled r then [v] else [].
Proof.
  intros Hl Ht. run_js. cbv [get_prop]. rewrite Hl. cbv beta iota.
  rewrite Ht. cbv beta iota. destruct (voiceOutputEnabled r); reflexivity.
Qed.

(* ------------------------------------------------------------------ *)
(** ** Voice output and the in-flight request *)

(** C1.  The spoken-answer decision of an in-flight send is taken from the
    [voiceOutputEnabled] of the render that dispatched it.  Here the
    speaker is on when send is pressed and switched off before the
    response arrives: at arrival the store holds [false], and the answer
    is spoken all the same. *)
Theorem C1_speak_decided_at_dispatch :
  let before := run start [PressSpeaker; ChangeText "hi"; PressSend 1000;
                           PressSpeaker] in
  let after := step before (FetchSettles 0 (answers "hello") 2000) in
  map (fun p => voiceOutputEnabled (p_render p)) (inflight before) = [true] /\
  voiceOutputEnabled (store (world before)) = false /\
  spoken (trace (world before)) = [] /\
  spoken (trace (world after)) = [VStr "hello"].
Proof. repeat split; reflexivity. Qed.

(* ------------------------------------------------------------------ *)
(** ** Message ids *)

(** C4.  Two messages created at the same clock reading get the same id:
    the user's message and the answer to it, both at [Date.now() = 1000]. *)
Theorem C4_same_instant_same_id :
  let sn := run start [ChangeText "hi"; PressSend 1000;
                       FetchSettles 0 (answers "hello") 1000] in
  messages (store (world sn)) =
    [mkMessage "1000" (VStr "hi") user; mkMessage "1000" (VStr "hello") llm] /\
  map id (messages (store (world sn))) = ["1000"; "1000"].
Proof. split; reflexivity. Qed.

(* ------------------------------------------------------------------ *)
(** ** Failed requests *)

(** C8.  When the request fails (the fetch rejects, the body does not
    parse, or it parses to [null]) the transcript is what it was, the
    error dialog is shown, and [isSending] is false afterwards; nothing
    else in the state changes. *)
Theorem C8_request_failed (r : State) (w : World) (res : FetchResult) (now : Z) :
  request_fails res = true ->
  exec (sendToBackend_settle r res now) w =
  mkWorld
    (mkState (messages (store w)) (isListening (store w)) (manualText (store w))
             (voiceOutputEnabled (store w)) false)
    (trace w ++ [ConsoleError "Error sending to LLM:";
                 AlertAlert "Error" "Failed to get response from the server.";
                 SetIsSending false]).
Proof.
  intros H. unfold request_fails in H.
  destruct res as [[st [data|e]]|e]; cbn [json] in H; run_js.
  - destruct (get_prop data "answer"); [discriminate|].
    flatten_trace. reflexivity.
  - flatten_trace. reflexivity.
  - flatten_trace. reflexivity.
Qed.

Lemma C8_request_failed_witness :
  request_fails (Throw (Rejected "Network request failed")) = true /\
  let w := world (run start [ChangeText "hi"; PressSend 1000]) in
  let w' := exec (sendToBackend_settle initial
                    (Throw (Rejected "Network request failed")) 2000) w in
  messages (store w') = [mkMessage "1000" (VStr "hi") user] /\
  alerts (trace w') = [("Error", "Failed to get response from the server.")] /\
  isSending (store w') = false.
Proof.
  split; [reflexivity|].
  cbv zeta.
  rewrite (C8_request_failed initial _ (Throw (Rejected "Network request failed"))
             2000 eq_refl).
  repeat split; reflexivity.
Defined.

(* ------------------------------------------------------------------ *)
(** ** Recognition errors *)

(** C9.  An engine error while listening sets [isListening] to false,
    shows the error's message in a dialog, and leaves [manualText],
    [messages], [isSending], [voiceOutputEnabled] and the in-flight
    requests as they were. *)
Theorem C9_speech_error (sn : Session) (e : SpeechErrorEvent) :
  isListening (store (world sn)) = true ->
  let s := store (world sn) in
  step sn (SpeechError e) =
  mkSession
    (mkWorld
       (mkState (messages s) false (manualText s) (voiceOutputEnabled s) (isSending s))
       (trace (world sn) ++
          [ConsoleLog "onSpeechError"; SetIsListening false;
           AlertAlert "Speech Recognition Error" (error_message e)]))
    (inflight sn).
Proof.
  intros _ s. subst s. cbn [step]. run_js. flatten_trace. reflexivity.
Qed.

Lemma C9_speech_error_witness :
  let sn := run start [ChangeText "draft"; SpeechStart] in
  isListening (store (world sn)) = true /\
  store (world (step sn (SpeechError (mkSpeechError "no match")))) =
    mkState [] false "draft" false false /\
  alerts (trace (world (step sn (SpeechError (mkSpeechError "no match"))))) =
    [("Speech Recognition Error", "no match")].
Proof.
  cbv zeta. split; [reflexivity|].
  rewrite (C9_speech_error (run start [ChangeText "draft"; SpeechStart])
             (mkSpeechError "no match") eq_refl).
  split; reflexivity.
Defined.

(* ------------------------------------------------------------------ *)
(** ** Falsy answers *)

(** C10.  A 2xx response whose body has an [answer] property with a falsy
    value (the empty string, 0, false, null) makes the session append the
    fixed message "No response from LLM." from [llm]; nothing is spoken,
    whatever [voiceOutputEnabled] is in the closure or in the store. *)
Theorem C10_falsy_answer (r : State) (w : World) (response : Response) (now : Z)
    (props : list (string * value)) (v : value) :
  ok response = true ->
  json response = Ok (VObj props) ->
  lookup_prop "answer" props = Some v ->
  truthy v = false ->
  let fallback := mkMessage (toString now) (VStr "No response from LLM.") llm in
  exec (sendToBackend_settle r (Ok response) now) w =
  mkWorld
    (mkState (messages (store w) ++ [fallback]) (isListening (store w))
             (manualText (store w)) (voiceOutputEnabled (store w)) false)
    (trace w ++ [SetMessagesAppend fallback; SetTimeoutScroll 100;
                 SetIsSending false]).
Proof.
  intros _ Hj Hl Hv fallback. subst fallback.
  run_js. rewrite Hj. cbv [get_prop]. rewrite Hl. cbv beta iota.
  rewrite Hv. cbv beta iota. cbn [fst snd store trace write messages isListening
    manualText voiceOutputEnabled isSending].
  flatten_trace. reflexivity.
Qed.

Lemma C10_falsy_answer_witness :
  let r := mkState [] false "" true true in
  let response := mkResponse 200 (Ok (VObj [("answer", VStr "")])) in
  let w' := exec (sendToBackend_settle r (Ok response) 2000) (mkWorld r []) in
  voiceOutputEnabled r = true /\
  messages (store w') = [mkMessage "2000" (VStr "No response from LLM.") llm] /\
  spoken (trace w') = [].
Proof.
  cbv zeta.
  rewrite (C10_falsy_answer (mkState [] false "" true true)
             (mkWorld (mkState [] false "" true true) [])
             (mkResponse 200 (Ok (VObj [("answer", VStr "")]))) 2000
             [("answer", VStr "")] (VStr "") eq_refl eq_refl eq_refl eq_refl).
  repeat split; reflexivity.
Defined.

(* ------------------------------------------------------------------ *)
(** ** The HTTP status *)

(** C2, counterexample.  A status-500 response whose body carries an answer is delivered as an
    answer: the message is appended and no error dialog is shown. *)
Lemma C2_counterexample :
  let response := mkResponse 500 (Ok (VObj [("answer", VStr "Internal error")])) in
  let l := calls (sendToBackend_settle initial (Ok response) 2000) initial in
  ok response = false /\
  appended l = [mkMessage "2000" (VStr "Internal error") llm] /\
  alerts l = [].
Proof. repeat split; reflexivity. Qed.

(** C2 (amended).  The status is never read: a non-2xx response is
    handled exactly as a status-200 response with the same body.  It ends
    in the error dialog with nothing appended exactly when its body does
    not parse (or parses to [null]); otherwise one message is appended
    and no dialog is shown. *)
Theorem C2_non_2xx_decided_by_body (r : State) (w : World) (response : Response)
    (now : Z) :
  ok response = false ->
  let l := calls (sendToBackend_settle r (Ok response) now) (store w) in
  sendToBackend_settle r (Ok response) now w =
    sendToBackend_settle r (Ok (mkResponse 200 (json response))) now w /\
  alerts l = (if request_fails (Ok response)
              then [("Error", "Failed to get response from the server.")]
              else []) /\
  length (appended l) = (if request_fails (Ok response) then 0%nat else 1%nat).
Proof.
  intros _ l. subst l. destruct response as [st [data|e]].
  - split; [reflexivity|]. unfold request_fails. run_js.
    destruct (get_prop data "answer") as [v|]; [|split; reflexivity].
    cbv beta iota. destruct (truthy v); [destruct (voiceOutputEnabled r)|];
      split; reflexivity.
  - repeat split; reflexivity.
Qed.

Lemma C2_non_2xx_decided_by_body_witness :
  let bad := mkResponse 502 (Throw (Rejected "JSON Parse error")) in
  let good := mkResponse 500 (Ok (VObj [("answer", VStr "Internal error")])) in
  ok bad = false /\ ok good = false /\
  alerts (calls (sendToBackend_settle initial (Ok bad) 2000) initial) =
    [("Error", "Failed to get response from the server.")] /\
  alerts (calls (sendToBackend_settle initial (Ok good) 2000) initial) = [].
Proof.
  cbv zeta. split; [reflexivity|]. split; [reflexivity|]. split.
  - exact (proj1 (proj2 (C2_non_2xx_decided_by_body initial (mkWorld initial [])
             (mkResponse 502 (Throw (Rejected "JSON Parse error"))) 2000 eq_refl))).
  - exact (proj1 (proj2 (C2_non_2xx_decided_by_body initial (mkWorld initial [])
             (mkResponse 500 (Ok (VObj [("answer", VStr "Internal error")])))
             2000 eq_refl))).
Defined.

(* ------------------------------------------------------------------ *)
(** ** When [isSending] is reset *)

(** C3, counterexample.  An answer is appended first (call 0) and the flag reset last (call 2);
    the same order holds for the fallback and for the error dialog. *)
Lemma C3_counterexample :
  let s := mkState [mkMessage "1000" (VStr "hi") user] false "" false true in
  let answered := calls (sendToBackend_settle s (answers "hello") 2000) s in
  let empty := calls (sendToBackend_settle s
                        (Ok (mkResponse 200 (Ok (VObj [])))) 2000) s in
  let failed := calls (sendToBackend_settle s (Throw (Rejected "timeout")) 2000) s in
  index_of delivers answered = Some 0%nat /\
  index_of resets_sending answered = Some 2%nat /\
  reset_precedes_delivery answered = false /\
  reset_precedes_delivery empty = false /\
  reset_precedes_delivery failed = false.
Proof. repeat split; reflexivity. Qed.

(** C3 (amended).  However the request ends, the calls of the settling
    dispatch are the delivery (append, speak or error dialog), without
    any write to [isSending], followed by [setIsSending(false)] as the
    last call; [isSending] is false once it has run. *)
Theorem C3_reset_after_delivery (r : State) (w : World) (res : FetchResult)
    (now : Z) :
  exists pre : list Event,
    trace (exec (sendToBackend_settle r res now) w) =
      trace w ++ pre ++ [SetIsSending false] /\
    existsb delivers pre = true /\
    existsb resets_sending pre = false /\
    isSending (store (exec (sendToBackend_settle r res now) w)) = false.
Proof.
  destruct res as [[st [data|e]]|e]; run_js.
  - destruct (get_prop data "answer") as [v|]; cbv beta iota.
    + destruct (truthy v); [destruct (voiceOutputEnabled r)|]; flatten_trace.
      * exists [SetMessagesAppend (mkMessage (toString now) v llm);
                SetTimeoutScroll 100; TtsSpeak v].
        repeat split; reflexivity.
      * exists [SetMessagesAppend (mkMessage (toString now) v llm);
                SetTimeoutScroll 100].
        repeat split; reflexivity.
      * exists [SetMessagesAppend
                  (mkMessage (toString now) (VStr "No response from LLM.") llm);
                SetTimeoutScroll 100].
        repeat split; reflexivity.
    + flatten_trace.
      exists [ConsoleError "Error sending to LLM:";
              AlertAlert "Error" "Failed to get response from the server."].
      repeat split; reflexivity.
  - flatten_trace.
    exists [ConsoleError "Error sending to LLM:";
            AlertAlert "Error" "Failed to get response from the server."].
    repeat split; reflexivity.
  - flatten_trace.
    exists [ConsoleError "Error sending to LLM:";
            AlertAlert "Error" "Failed to get response from the server."].
    repeat split; reflexivity.
Qed.

(* ------------------------------------------------------------------ *)
(** ** Blank text *)

(** C5, counterexample.  [addMessage] appends a whitespace-only text: called directly, and in
    a session where the service answers with two spaces. *)
Lemma C5_counterexample :
  blank "  " = true /\
  addMessage (VStr "  ") llm 2000 (mkWorld initial []) =
    (Ok tt,
     mkWorld (mkState [mkMessage "2000" (VStr "  ") llm] false "" false false)
             [SetMessagesAppend (mkMessage "2000" (VStr "  ") llm);
              SetTimeoutScroll 100]) /\
  messages (store (world (run start [ChangeText "hi"; PressSend 1000;
                                     FetchSettles 0 (answers "  ") 2000]))) =
    [mkMessage "1000" (VStr "hi") user; mkMessage "2000" (VStr "  ") llm].
Proof. repeat split; reflexivity. Qed.

(** C5 (amended).  [addMessage] checks nothing and cannot fail: whatever
    the text, it builds the Message and appends it as the last element.
    Blank input is refused one level up: with a buffer that is empty or
    whitespace-only, [handleSend] shows "Input Required", builds no
    Message, writes no state and dispatches nothing. *)
Theorem C5_blank_rejected_by_caller (r : State) (w : World) (now : Z)
    (t : value) (sd : Sender) :
  blank (manualText r) = true ->
  handleSend r now w =
    (Ok None,
     mkWorld (store w)
             (trace w ++ [AlertAlert "Input Required" "Please enter some text."])) /\
  fst (addMessage t sd now w) = Ok tt /\
  messages (store (exec (addMessage t sd now) w)) =
    messages (store w) ++ [mkMessage (toString now) t sd].
Proof.
  intros Hb. split.
  - unfold handleSend. rewrite (trim_blank _ Hb). reflexivity.
  - rewrite addMessage_spec. split; reflexivity.
Qed.

Lemma C5_blank_rejected_by_caller_witness :
  let r := mkState [] false "   " false false in
  blank (manualText r) = true /\
  handleSend r 1000 (mkWorld r []) =
    (Ok None,
     mkWorld r [AlertAlert "Input Required" "Please enter some text."]).
Proof.
  cbv zeta. split; [reflexivity|].
  exact (proj1 (C5_blank_rejected_by_caller (mkState [] false "   " false false)
                  (mkWorld (mkState [] false "   " false false) []) 1000
                  VUndefined user eq_refl)).
Defined.

(* ------------------------------------------------------------------ *)
(** ** Sending while a request is in flight *)

(** C6, counterexample.  With a request in flight and "again" in the buffer, a press on send
    changes nothing: one request was made, one is in flight. *)
Lemma C6_counterexample :
  let busy := run start [ChangeText "first"; PressSend 1000; ChangeText "again"] in
  let pressed := step busy (PressSend 1001) in
  isSending (store (world busy)) = true /\
  trim (manualText (store (world busy))) = "again" /\
  pressed = busy /\
  fetches (trace (world pressed)) = ["first"] /\
  length (inflight pressed) = 1%nat.
Proof. repeat split; reflexivity. Qed.

(** C6 (amended).  The send button is disabled while [isSending] is true:
    in every such state a press on it does nothing, so no second request
    overlaps the first.  [handleSend] itself does not look at
    [isSending]: called with a non-blank buffer it dispatches whatever
    the flag is; the button's [disabled] is the only guard. *)
Theorem C6_send_disabled_while_sending (sn : Session) (now : Z) :
  isSending (store (world sn)) = true ->
  step sn (PressSend now) = sn /\
  (trim (manualText (store (world sn))) <> "" ->
   fetches (calls (handleSend (store (world sn)) now) (store (world sn))) =
     [trim (manualText (store (world sn)))]).
Proof.
  intros Hs. split.
  - destruct sn as [w fl]. cbn [step world inflight] in *.
    unfold pressSend, sendButton_disabled. rewrite Hs.
    destruct w; reflexivity.
  - intros Hne. apply String.eqb_neq in Hne.
    unfold handleSend. rewrite Hne. reflexivity.
Qed.

Lemma C6_send_disabled_while_sending_witness :
  let busy := run start [ChangeText "first"; PressSend 1000; ChangeText "again"] in
  isSending (store (world busy)) = true /\
  step busy (PressSend 1001) = busy.
Proof.
  cbv zeta. split; [reflexivity|].
  exact (proj1 (C6_send_disabled_while_sending
                  (run start [ChangeText "first"; PressSend 1000; ChangeText "again"])
                  1001 eq_refl)).
Defined.

(* ------------------------------------------------------------------ *)
(** ** Microphone permission *)

(** C7, counterexample.  On Android with the permission denied, the only call made is the
    permission request: no dialog, no console message. *)
Lemma C7_counterexample :
  let env := mkMicEnv "android" DENIED (Ok tt) (Ok tt) in
  let l := calls (toggleListening initial env) initial in
  isListening initial = false /\
  l = [PermissionsRequest] /\
  alerts l = [].
Proof. repeat split; reflexivity. Qed.

(** C7 (amended).  When [toggleListening] runs while not listening and
    the permission is not granted, recognition is not started and no
    state changes, [isListening] included; nothing is reported to the
    user: the permission request is the only call. *)
Theorem C7_denied_is_silent (r : State) (w : World) (env : MicEnv) :
  isListening r = false ->
  platformOS env = "android" ->
  granted env <> GRANTED ->
  exec (toggleListening r env) w =
    mkWorld (store w) (trace w ++ [PermissionsRequest]).
Proof.
  intros Hl Hp Hg. unfold toggleListening, requestMicrophonePermission.
  rewrite Hl, Hp. cbn [String.eqb Ascii.eqb Bool.eqb].
  destruct (granted env); [contradiction| |]; reflexivity.
Qed.

Lemma C7_denied_is_silent_witness :
  let env := mkMicEnv "android" NEVER_ASK_AGAIN (Ok tt) (Ok tt) in
  exec (toggleListening initial env) (mkWorld initial []) =
    mkWorld initial [PermissionsRequest].
Proof.
  cbv zeta.
  refine (C7_denied_is_silent initial (mkWorld initial [])
            (mkMicEnv "android" NEVER_ASK_AGAIN (Ok tt) (Ok tt)) eq_refl eq_refl _).
  discriminate.
Defined.

(* ================================================================== *)
(** * Further properties of the handlers *)

(** ** What each handler does to the world *)

Lemma trimStart_nonblank (s : string) :
  blank s = false ->
  exists c t, trimStart s = String c t /\ is_ws c = false.
Proof.
  induction s as [|c s IH]; cbn [blank trimStart]; [discriminate|].
  destruct (is_ws c) eqn:Hc; cbn [andb]; intros H.
  - exact (IH H).
  - exists c, s. split; [reflexivity | exact Hc].
Qed.

Lemma trimEnd_head (c : ascii) (t : string) :
  is_ws c = false -> exists t', trimEnd (String c t) = String c t'.
Proof.
  intros Hc. cbn [trimEnd]. destruct (trimEnd t) as [|d t'].
  - rewrite Hc. eexists; reflexivity.
  - eexists; reflexivity.
Qed.

Lemma trim_nonblank (s : string) :
  blank s = false -> exists c t, trim s = String c t /\ is_ws c = false.
Proof.
  intros H. destruct (trimStart_nonblank s H) as (c & t & E & Hc).
  unfold trim. rewrite E. destruct (trimEnd_head c t Hc) as [t' E'].
  exists c, t'. split; assumption.
Qed.

Lemma trim_empty_iff (s : string) : trim s = "" <-> blank s = true.
Proof.
  split; [|apply trim_blank].
  intros E. destruct (blank s) eqn:Hb; [reflexivity|].
  destruct (trim_nonblank s Hb) as (c & t & E' & _). congruence.
Qed.

Lemma ends_ws_trimEnd (s : string) : ends_ws (trimEnd s) = false.
Proof.
  induction s as [|c s IH]; [reflexivity|]. cbn [trimEnd].
  destruct (trimEnd s) as [|d t].
  - destruct (is_ws c) eqn:Hc; cbn [ends_ws]; [reflexivity | exact Hc].
  - exact IH.
Qed.

Lemma trimEnd_fixed (s : string) : ends_ws s = false -> trimEnd s = s.
Proof.
  induction s as [|c s IH]; [reflexivity|].
  destruct s as [|d t].
  - cbn [ends_ws trimEnd]. intros Hc. rewrite Hc. reflexivity.
  - intros H. change (ends_ws (String d t) = false) in H.
    specialize (IH H). cbn [trimEnd] in *. rewrite IH. reflexivity.
Qed.

Lemma trimStart_fixed (s : string) : starts_ws s = false -> trimStart s = s.
Proof. destruct s as [|c s]; cbn; [reflexivity|]. intros Hc. rewrite Hc. reflexivity. Qed.

Lemma starts_ws_trim (s : string) : starts_ws (trim s) = false.
Proof.
  destruct (blank s) eqn:Hb.
  - rewrite (trim_blank s Hb). reflexivity.
  - destruct (trim_nonblank s Hb) as (c & t & E & Hc). rewrite E. exact Hc.
Qed.

(** The three ways a press on the send button can go. *)
Lemma pressSend_shape (r : State) (now : Z) (w : World) :
  (isSending r = true /\ pressSend r now w = (Ok None, w)) \/
  (isSending r = false /\ blank (manualText r) = true /\
   pressSend r now w =
     (Ok None,
      mkWorld (store w)
              (trace w ++ [AlertAlert "Input Required" "Please enter some text."]))) \/
  (isSending r = false /\ blank (manualText r) = false /\
   pressSend r now w =
     (Ok (Some (mkPending r (trim (manualText r)))),
      mkWorld
        (mkState (messages (store w) ++ [user_message (trim (manualText r)) now])
                 (isListening (store w)) "" (voiceOutputEnabled (store w)) true)
        (trace w ++
           [SetMessagesAppend (user_message (trim (manualText r)) now);
            SetTimeoutScroll 100; SetManualText ""; SetIsSending true;
            ask (trim (manualText r))]))).
Proof.
  unfold pressSend, sendButton_disabled.
  destruct (isSending r) eqn:Hs.
  - left. split; reflexivity.
  - right. unfold handleSend. destruct (blank (manualText r)) eqn:Hb.
    + left. rewrite (trim_blank _ Hb). repeat split; reflexivity.
    + right. destruct (trim_nonblank _ Hb) as (c & t & E & _).
      rewrite E. repeat split. run_js. cbn [String.eqb]. flatten_trace.
      reflexivity.
Qed.

(** However the request ends, settling appends at most one [llm] message
    stamped with the clock, resets [isSending], makes no request, and
    leaves the other cells alone. *)
Lemma settle_shape (r : State) (res : FetchResult) (now : Z) (w : World) :
  exists (ms : list Message) (evs : list Event),
    sendToBackend_settle r res now w =
      (Ok tt,
       mkWorld (mkState (messages (store w) ++ ms) (isListening (store w))
                        (manualText (store w)) (voiceOutputEnabled (store w)) false)
               (trace w ++ evs)) /\
    (ms = [] \/ exists v, ms = [mkMessage (toString now) v llm]) /\
    appended evs = ms /\
    fetches evs = [].
Proof.
  destruct res as [[st [data|e]]|e]; run_js.
  - destruct (get_prop data "answer") as [v|]; cbv beta iota.
    + destruct (truthy v); [destruct (voiceOutputEnabled r)|]; flatten_trace.
      * exists [mkMessage (toString now) v llm],
               [SetMessagesAppend (mkMessage (toString now) v llm);
                SetTimeoutScroll 100; TtsSpeak v; SetIsSending false].
        repeat split; eauto.
      * exists [mkMessage (toString now) v llm],
               [SetMessagesAppend (mkMessage (toString now) v llm);
                SetTimeoutScroll 100; SetIsSending false].
        repeat split; eauto.
      * exists [mkMessage (toString now) (VStr "No response from LLM.") llm],
               [SetMessagesAppend
                  (mkMessage (toString now) (VStr "No response from LLM.") llm);
                SetTimeoutScroll 100; SetIsSending false].
        repeat split; eauto.
    + flatten_trace. exists [], (failure_report ++ [SetIsSending false]).
      rewrite app_nil_r. repeat split; auto.
  - flatten_trace. exists [], (failure_report ++ [SetIsSending false]).
    rewrite app_nil_r. repeat split; auto.
  - flatten_trace. exists [], (failure_report ++ [SetIsSending false]).
    rewrite app_nil_r. repeat split; auto.
Qed.

(** [toggleListening] returns normally, writes no cell, and calls only
    the permission dialog, the recognizer and the console. *)
Lemma toggleListening_shape (r : State) (env : MicEnv) (w : World) :
  exists evs : list Event,
    toggleListening r env w = (Ok tt, mkWorld (store w) (trace w ++ evs)) /\
    Forall (fun e => e = PermissionsRequest \/ e = VoiceStart "en-US" \/
                     e = VoiceStop \/ e = ConsoleError "Voice.stop error:" \/
                     e = ConsoleError "Voice.start error:") evs.
Proof.
  unfold toggleListening, requestMicrophonePermission.
  destruct (isListening r).
  - destruct (stopResult env) as [[]|e] eqn:Hr; run_js; rewrite ?Hr; flatten_trace.
    + exists [VoiceStop]. split; [reflexivity|].
      repeat (apply Forall_cons || apply Forall_nil); auto 10.
    + exists [VoiceStop; ConsoleError "Voice.stop error:"].
      split; [reflexivity|].
      repeat (apply Forall_cons || apply Forall_nil); auto 10.
  - destruct (platformOS env =? "android")%string;
      [destruct (granted env)|];
      try (destruct (startResult env) as [[]|e] eqn:Hr); run_js;
      rewrite ?Hr; flatten_trace.
    all: eexists; split; [reflexivity|];
      repeat (apply Forall_cons || apply Forall_nil); auto 10.
Qed.

(** ** What one input does to a session *)

Lemma fetches_app (l l' : list Event) : fetches (l ++ l') = fetches l ++ fetches l'.
Proof. apply flat_map_app. Qed.

Lemma appended_app (l l' : list Event) : appended (l ++ l') = appended l ++ appended l'.
Proof. apply flat_map_app. Qed.

(** An input is quiet (transcript, [isSending], requests in flight and
    requests made stay as they are), or it dispatches, or it settles. *)
Lemma step_cases (sn : Session) (i : Input) :
  let s := store (world sn) in
  let sn' := step sn i in
  let s' := store (world sn') in
  (messages s' = messages s /\ isSending s' = isSending s /\
   inflight sn' = inflight sn /\
   fetches (trace (world sn')) = fetches (trace (world sn))) \/
  (exists now,
     i = PressSend now /\ isSending s = false /\ blank (manualText s) = false /\
     messages s' = messages s ++ [user_message (trim (manualText s)) now] /\
     isSending s' = true /\
     inflight sn' = inflight sn ++ [mkPending s (trim (manualText s))] /\
     fetches (trace (world sn')) =
       fetches (trace (world sn)) ++ [trim (manualText s)]) \/
  (exists k res now p ms,
     i = FetchSettles k res now /\ nth_error (inflight sn) k = Some p /\
     messages s' = messages s ++ ms /\
     (ms = [] \/ exists v, ms = [mkMessage (toString now) v llm]) /\
     isSending s' = false /\
     inflight sn' = remove_nth k (inflight sn) /\
     fetches (trace (world sn')) = fetches (trace (world sn))).
Proof.
  destruct sn as [w fl]. cbv zeta. destruct i as [now| |env|t| | |e|e|k res now];
    cbn [step world inflight].
  - destruct (pressSend_shape (store w) now w)
      as [[Hs E]|[(Hs & Hb & E)|(Hs & Hb & E)]]; rewrite E; cbn [world inflight store].
    + left. repeat split; reflexivity.
    + left. cbn [trace]. rewrite fetches_app, app_nil_r. repeat split; reflexivity.
    + right. left. exists now. cbn [trace messages isSending].
      rewrite fetches_app. repeat split; assumption || reflexivity.
  - left. run_js. rewrite fetches_app, app_nil_r. repeat split; reflexivity.
  - left. destruct (toggleListening_shape (store w) env w) as (evs & E & Hev).
    unfold exec. rewrite E. cbn [snd store trace]. rewrite fetches_app.
    assert (Hf : fetches evs = []).
    { clear E. induction Hev as [|e evs He _ IH]; [reflexivity|].
      cbn [fetches flat_map]. fold (fetches evs). rewrite IH, app_nil_r.
      destruct He as [->|[->|[->|[->| ->]]]]; reflexivity. }
    rewrite Hf, app_nil_r. repeat split; reflexivity.
  - left. run_js. rewrite fetches_app, app_nil_r. repeat split; reflexivity.
  - left. run_js. rewrite fetches_app, app_nil_r. repeat split; reflexivity.
  - left. run_js. rewrite fetches_app, app_nil_r. repeat split; reflexivity.
  - left. unfold onSpeechResults. destruct (r_value e) as [[|t ts]|];
      try (repeat split; reflexivity).
    destruct (negb (t =? "")%string); [|repeat split; reflexivity].
    run_js. rewrite fetches_app, app_nil_r. repeat split; reflexivity.
  - left. run_js. flatten_trace. rewrite fetches_app, app_nil_r.
    repeat split; reflexivity.
  - destruct (nth_error fl k) as [p|] eqn:Hk.
    + right. right. exists k, res, now, p.
      destruct (settle_shape (p_render p) res now w) as (ms & evs & E & Hms & _ & Hf).
      exists ms. unfold exec. rewrite E.
      cbn [snd world inflight store trace messages isSending].
      rewrite fetches_app, Hf, app_nil_r. repeat split; assumption || reflexivity.
    + left. repeat split; reflexivity.
Qed.

(** ** Invariants of a session *)

Lemma last_is_user_snoc (b : bool) (l : list Message) (m : Message) :
  last_is_user b (l ++ [m]) = is_user m.
Proof. revert b. induction l as [|x l IH]; intros b; cbn; [reflexivity | apply IH]. Qed.

Lemma answers_follow_questions_snoc (b : bool) (l : list Message) (m : Message) :
  answers_follow_questions b (l ++ [m]) =
  answers_follow_questions b l && (is_user m || last_is_user b l).
Proof.
  revert b. induction l as [|x l IH]; intros b; cbn [app answers_follow_questions
    last_is_user].
  - destruct (is_user m), b; reflexivity.
  - destruct (is_user x); rewrite IH; [reflexivity|].
    destruct b; reflexivity.
Qed.

Lemma user_texts_snoc (l : list Message) (m : Message) :
  user_texts (l ++ [m]) = user_texts l ++ (if is_user m then [text m] else []).
Proof.
  unfold user_texts. rewrite filter_app, map_app. cbn [filter].
  destruct (is_user m); reflexivity.
Qed.

Lemma consistent_start : consistent start.
Proof. unfold consistent. cbn. auto. Qed.

Lemma consistent_step (sn : Session) (i : Input) :
  consistent sn -> consistent (step sn i).
Proof.
  intros (Hfl & Hq & Hf).
  destruct (step_cases sn i) as
    [(Em & Es & Efl & Ef)
    |[(now & _ & Hs & Hb & Em & Es & Efl & Ef)
     |(k & res & now & p & ms & _ & Hk & Em & Hms & Es & Efl & Ef)]];
    unfold consistent; cbv zeta; rewrite Em, Es, Efl, Ef.
  - repeat split; assumption.
  - destruct Hfl as [[Hnil _]|(p & _ & Hs' & _)]; [|congruence].
    rewrite Hnil. split; [|split].
    + right. eexists. split; [reflexivity|]. split; [reflexivity|].
      apply last_is_user_snoc.
    + rewrite answers_follow_questions_snoc, Hq. reflexivity.
    + rewrite user_texts_snoc, map_app, Hf. reflexivity.
  - destruct Hfl as [[Hnil _]|(q & Hone & _ & Hlast)].
    { rewrite Hnil in Hk. destruct k; discriminate. }
    rewrite Hone in Hk |- *. destruct k as [|k]; [|destruct k; discriminate].
    cbn [remove_nth]. split; [left; split; reflexivity|].
    destruct Hms as [->|[v ->]].
    + rewrite app_nil_r. split; assumption.
    + split.
      * rewrite answers_follow_questions_snoc, Hq, Hlast. reflexivity.
      * rewrite user_texts_snoc, app_nil_r. exact Hf.
Qed.

Lemma consistent_run (inputs : list Input) (sn : Session) :
  consistent sn -> consistent (run sn inputs).
Proof.
  revert sn. induction inputs as [|i inputs IH]; intros sn H; [exact H|].
  apply (IH (step sn i)), consistent_step, H.
Qed.

Lemma answers_follow_questions_nth (l : list Message) (b : bool) (n : nat)
    (m : Message) :
  answers_follow_questions b l = true ->
  nth_error l n = Some m -> sender m = llm ->
  match n with
  | O => b = true
  | S j => exists q, nth_error l j = Some q /\ sender q = user
  end.
Proof.
  revert b n. induction l as [|x l IH]; intros b n H Hn Hm.
  - destruct n; discriminate.
  - cbn [answers_follow_questions] in H. destruct n as [|n].
    + injection Hn as ->. unfold is_user in H. rewrite Hm in H.
      apply andb_true_iff in H. tauto.
    + cbn [nth_error] in Hn. destruct n as [|n].
      * exists x. split; [reflexivity|].
        destruct (is_user x) eqn:Hx.
        -- unfold is_user in Hx. destruct (sender x); [reflexivity|discriminate].
        -- apply andb_true_iff in H as [_ H].
           specialize (IH false O H Hn Hm). discriminate.
      * destruct (is_user x).
        -- exact (IH true (S n) H Hn Hm).
        -- apply andb_true_iff in H as [_ H]. exact (IH false (S n) H Hn Hm).
Qed.

Lemma sorted_drop_middle (a b c : list Z) :
  StronglySorted Z.lt (a ++ b ++ c) -> StronglySorted Z.lt (a ++ c).
Proof.
  induction a as [|x a IH]; cbn [app].
  - induction b as [|y b IHb]; cbn [app]; [auto|].
    intros H. apply IHb. now inversion H.
  - intros H. inversion H as [|? ? Hs Hall]; subst. constructor; [auto|].
    apply Forall_app in Hall as [Ha Hbc]. apply Forall_app in Hbc as [_ Hc].
    apply Forall_app. split; assumption.
Qed.

(** The ids a step adds are the clock readings its input carries. *)
Lemma step_ids (sn : Session) (i : Input) :
  exists ns,
    map id (messages (store (world (step sn i)))) =
      map id (messages (store (world sn))) ++ map toString ns /\
    (ns = [] \/ ns = reading i).
Proof.
  destruct (step_cases sn i) as
    [(Em & _)
    |[(now & -> & _ & _ & Em & _)
     |(k & res & now & p & ms & -> & _ & Em & Hms & _)]]; rewrite Em.
  - exists []. rewrite app_nil_r. auto.
  - exists [now]. rewrite map_app. auto.
  - destruct Hms as [->|[v ->]].
    + exists []. rewrite !app_nil_r. auto.
    + exists [now]. rewrite map_app. auto.
Qed.

Lemma run_ids (inputs : list Input) (sn : Session) (ns0 : list Z) :
  map id (messages (store (world sn))) = map toString ns0 ->
  StronglySorted Z.lt (ns0 ++ readings inputs) ->
  exists ns1,
    map id (messages (store (world (run sn inputs)))) = map toString ns1 /\
    StronglySorted Z.lt ns1.
Proof.
  revert sn ns0. induction inputs as [|i inputs IH]; intros sn ns0 Hid Hs.
  - exists ns0. cbn in Hs. rewrite app_nil_r in Hs. auto.
  - cbn [run fold_left]. change (fold_left step inputs (step sn i))
      with (run (step sn i) inputs).
    destruct (step_ids sn i) as (ns & E & Hns).
    apply (IH (step sn i) (ns0 ++ ns)).
    + rewrite E, Hid, map_app. reflexivity.
    + unfold readings in Hs. cbn [flat_map] in Hs. fold (readings inputs) in Hs.
      destruct Hns as [->| ->].
      * rewrite app_nil_r. exact (sorted_drop_middle _ _ _ Hs).
      * rewrite <- app_assoc. exact Hs.
Qed.

Lemma sorted_lt_NoDup (l : list Z) : StronglySorted Z.lt l -> NoDup l.
Proof.
  induction 1 as [|x l _ IH Hall]; constructor; [|exact IH].
  intros Hin. rewrite Forall_forall in Hall. specialize (Hall x Hin). lia.
Qed.

Lemma NoDup_map_toString (l : list Z) : NoDup l -> NoDup (map toString l).
Proof.
  induction 1 as [|x l Hx _ IH]; cbn [map]; constructor; [|exact IH].
  intros Hin. apply in_map_iff in Hin as (y & E & Hy).
  apply toString_inj in E. subst y. exact (Hx Hy).
Qed.

Lemma step_listening (sn : Session) (i : Input) :
  engine_event i = false ->
  isListening (store (world (step sn i))) = isListening (store (world sn)).
Proof.
  destruct sn as [w fl]. destruct i as [now| |env|t| | |e|e|k res now];
    cbn [engine_event step world inflight]; try discriminate; intros _.
  - destruct (pressSend_shape (store w) now w)
      as [[_ E]|[(_ & _ & E)|(_ & _ & E)]]; rewrite E; reflexivity.
  - reflexivity.
  - destruct (toggleListening_shape (store w) env w) as (evs & E & _).
    unfold exec. rewrite E. reflexivity.
  - reflexivity.
  - unfold onSpeechResults. destruct (r_value e) as [[|t ts]|]; try reflexivity.
    destruct (negb (t =? "")%string); reflexivity.
  - destruct (nth_error fl k) as [p|]; [|reflexivity].
    destruct (settle_shape (p_render p) res now w) as (ms & evs & E & _).
    unfold exec. rewrite E. reflexivity.
Qed.

Lemma step_voice (sn : Session) (i : Input) :
  voiceOutputEnabled (store (world (step sn i))) =
  xorb (voiceOutputEnabled (store (world sn))) (is_speaker_press i).
Proof.
  destruct sn as [w fl]. destruct i as [now| |env|t| | |e|e|k res now];
    cbn [is_speaker_press step world inflight]; rewrite ?xorb_false_r.
  - destruct (pressSend_shape (store w) now w)
      as [[_ E]|[(_ & _ & E)|(_ & _ & E)]]; rewrite E; reflexivity.
  - run_js. rewrite xorb_true_r. reflexivity.
  - destruct (toggleListening_shape (store w) env w) as (evs & E & _).
    unfold exec. rewrite E. reflexivity.
  - reflexivity.
  - reflexivity.
  - reflexivity.
  - unfold onSpeechResults. destruct (r_value e) as [[|t ts]|]; try reflexivity.
    destruct (negb (t =? "")%string); reflexivity.
  - reflexivity.
  - destruct (nth_error fl k) as [p|]; [|reflexivity].
    destruct (settle_shape (p_render p) res now w) as (ms & evs & E & _).
    unfold exec. rewrite E. reflexivity.
Qed.

Lemma settle_added_truthy (r : State) (res : FetchResult) (now : Z) (w : World) :
  exists ms,
    messages (store (exec (sendToBackend_settle r res now) w)) =
      messages (store w) ++ ms /\
    Forall (fun m => truthy (text m) = true) ms.
Proof.
  destruct res as [[st [data|e]]|e]; run_js;
    try (exists []; flatten_trace; rewrite app_nil_r; split; [reflexivity|constructor]).
  destruct (get_prop data "answer") as [v|]; cbv beta iota.
  - destruct (truthy v) eqn:Hv; [destruct (voiceOutputEnabled r)|]; flatten_trace;
      eexists; (split; [reflexivity|]); repeat constructor; exact Hv.
  - exists []. flatten_trace. rewrite app_nil_r. split; [reflexivity|constructor].
Qed.

Lemma step_added_truthy (sn : Session) (i : Input) :
  exists ms,
    messages (store (world (step sn i))) = messages (store (world sn)) ++ ms /\
    Forall (fun m => truthy (text m) = true) ms.
Proof.
  destruct sn as [w fl]. destruct i as [now| |env|t| | |e|e|k res now];
    cbn [step world inflight];
    try (exists []; rewrite app_nil_r; split; [reflexivity|constructor]).
  - destruct (pressSend_shape (store w) now w)
      as [[_ E]|[(_ & _ & E)|(_ & Hb & E)]]; rewrite E; cbn [world store messages];
      try (exists []; rewrite app_nil_r; split; [reflexivity|constructor]).
    eexists. split; [reflexivity|]. repeat constructor.
    destruct (trim_nonblank _ Hb) as (c & t & Et & _). rewrite Et. reflexivity.
  - destruct (toggleListening_shape (store w) env w) as (evs & E & _).
    unfold exec. rewrite E. exists []. rewrite app_nil_r.
    split; [reflexivity|constructor].
  - unfold onSpeechResults. destruct (r_value e) as [[|t ts]|];
      try (exists []; rewrite app_nil_r; split; [reflexivity|constructor]).
    destruct (negb (t =? "")%string);
      exists []; rewrite app_nil_r; (split; [reflexivity|constructor]).
  - destruct (nth_error fl k) as [p|].
    + apply settle_added_truthy.
    + exists []. rewrite app_nil_r. split; [reflexivity|constructor].
Qed.

(* ------------------------------------------------------------------ *)
(** ** Recognition results *)

(** Close [~ In e l] for a list [l] of known calls. *)
Ltac absent :=
  let H := fresh in
  cbn [In]; intros H;
  repeat (destruct H as [H|H]; try discriminate); try contradiction.

(** X1.  A results event whose first candidate is a non-empty string puts
    that candidate, verbatim, in the text input, replacing what was there;
    nothing is sent or appended and no other cell changes. *)
Theorem speech_results_fill_buffer (sn : Session) (e : SpeechResultsEvent)
    (t : string) (rest : list string) :
  r_value e = Some (t :: rest) ->
  t <> "" ->
  let s := store (world sn) in
  step sn (SpeechResults e) =
  mkSession
    (mkWorld
       (mkState (messages s) (isListening s) t (voiceOutputEnabled s) (isSending s))
       (trace (world sn) ++ [SetManualText t]))
    (inflight sn).
Proof.
  intros Hv Ht s. subst s. cbn [step]. unfold onSpeechResults. rewrite Hv.
  apply String.eqb_neq in Ht. rewrite Ht. reflexivity.
Qed.

Lemma speech_results_fill_buffer_witness :
  let sn := run start [ChangeText "typed"; SpeechStart] in
  store (world (step sn (SpeechResults (mkResults (Some [" turn on"; "turnip"]))))) =
    mkState [] true " turn on" false false.
Proof.
  cbv zeta.
  rewrite (speech_results_fill_buffer
             (run start [ChangeText "typed"; SpeechStart])
             (mkResults (Some [" turn on"; "turnip"])) " turn on" ["turnip"]
             eq_refl).
  - reflexivity.
  - discriminate.
Defined.

(** X2.  A results event with no [value], with an empty [value], or with
    an empty first candidate is ignored: the session is what it was, the
    text input included. *)
Theorem speech_results_without_text_ignored (sn : Session)
    (e : SpeechResultsEvent) :
  (r_value e = None \/ r_value e = Some [] \/
   exists rest, r_value e = Some ("" :: rest)) ->
  step sn (SpeechResults e) = sn.
Proof.
  intros H. destruct sn as [[s l] fl]. cbn [step world inflight].
  unfold onSpeechResults.
  destruct H as [->|[->|[rest ->]]]; reflexivity.
Qed.

Lemma speech_results_without_text_ignored_witness :
  let sn := run start [ChangeText "typed"] in
  step sn (SpeechResults (mkResults (Some [""; "later"]))) = sn /\
  step sn (SpeechResults (mkResults (Some []))) = sn /\
  step sn (SpeechResults (mkResults None)) = sn.
Proof.
  cbv zeta. split; [|split].
  - apply speech_results_without_text_ignored. right. right.
    exists ["later"]. reflexivity.
  - apply speech_results_without_text_ignored. right. left. reflexivity.
  - apply speech_results_without_text_ignored. left. reflexivity.
Defined.

(* ------------------------------------------------------------------ *)
(** ** The microphone button *)


(** X4.  Pressed while listening, the microphone button only stops the
    recognizer: [Voice.stop()] is called, the permission dialog is not
    opened and recognition is not started; a rejected stop is logged to
    the console. *)
Theorem toggleListening_while_listening_only_stops (r : State) (env : MicEnv)
    (s : State) :
  isListening r = true ->
  calls (toggleListening r env) s =
    VoiceStop :: match stopResult env with
                 | Ok _ => []
                 | Throw _ => [ConsoleError "Voice.stop error:"]
                 end /\
  ~ In PermissionsRequest (calls (toggleListening r env) s) /\
  forall locale, ~ In (VoiceStart locale) (calls (toggleListening r env) s).
Proof.
  intros Hl. unfold toggleListening. rewrite Hl.
  destruct (stopResult env) as [[]|e] eqn:Hr; run_js; rewrite ?Hr; cbn [app snd trace];
    (split; [reflexivity|]); (split; [absent | intros locale; absent]).
Qed.

Lemma toggleListening_while_listening_only_stops_witness :
  let r := mkState [] true "" false false in
  calls (toggleListening r (mkMicEnv "android" DENIED
                              (Throw (Rejected "busy")) (Ok tt))) r =
    [VoiceStop; ConsoleError "Voice.stop error:"].
Proof.
  cbv zeta.
  exact (proj1 (toggleListening_while_listening_only_stops
                  (mkState [] true "" false false)
                  (mkMicEnv "android" DENIED (Throw (Rejected "busy")) (Ok tt))
                  (mkState [] true "" false false) eq_refl)).
Defined.

(** X5.  Pressed while not listening, the button starts recognition
    exactly when the platform is not Android or the Android permission
    comes back GRANTED; the locale is always "en-US", the permission
    dialog is opened exactly on Android, and [Voice.stop()] is not
    called. *)
Theorem toggleListening_starts_iff_permitted (r : State) (env : MicEnv)
    (s : State) :
  isListening r = false ->
  let l := calls (toggleListening r env) s in
  (In (VoiceStart "en-US") l <->
     platformOS env <> "android" \/ granted env = GRANTED) /\
  (forall locale, In (VoiceStart locale) l -> locale = "en-US") /\
  (In PermissionsRequest l <-> platformOS env = "android") /\
  ~ In VoiceStop l.
Proof.
  intros Hl l. subst l. unfold toggleListening, requestMicrophonePermission.
  rewrite Hl.
  destruct (String.eqb_spec (platformOS env) "android") as [Hp|Hp].
  - destruct (granted env) eqn:Hg;
      try (destruct (startResult env) as [[]|e] eqn:Hr); run_js; rewrite ?Hr;
      cbn [app snd trace In];
      repeat split; try intros locale; intuition (congruence || discriminate).
  - destruct (startResult env) as [[]|e] eqn:Hr; run_js; rewrite ?Hr;
      cbn [app snd trace In];
      repeat split; try intros locale; intuition (congruence || discriminate).
Qed.

Lemma toggleListening_starts_iff_permitted_witness :
  In (VoiceStart "en-US")
     (calls (toggleListening initial (mkMicEnv "ios" DENIED (Ok tt) (Ok tt))) initial) /\
  In (VoiceStart "en-US")
     (calls (toggleListening initial (mkMicEnv "android" GRANTED (Ok tt) (Ok tt)))
            initial).
Proof.
  split.
  - apply (proj1 (toggleListening_starts_iff_permitted initial
                    (mkMicEnv "ios" DENIED (Ok tt) (Ok tt)) initial eq_refl)).
    left. discriminate.
  - apply (proj1 (toggleListening_starts_iff_permitted initial
                    (mkMicEnv "android" GRANTED (Ok tt) (Ok tt)) initial eq_refl)).
    right. reflexivity.
Defined.

(* ------------------------------------------------------------------ *)
(** ** Sending *)

(** X6.  With a buffer that is not blank, [handleSend] appends the
    trimmed text as a [user] message to the transcript as it stands in
    the store, clears the text input, raises [isSending] and posts one
    request whose prompt is the trimmed text, in that order; the
    suspended request keeps the render it was sent from. *)
Theorem handleSend_dispatches (r : State) (now : Z) (w : World) :
  blank (manualText r) = false ->
  let t := trim (manualText r) in
  handleSend r now w =
    (Ok (Some (mkPending r t)),
     mkWorld
       (mkState (messages (store w) ++ [user_message t now]) (isListening (store w))
                "" (voiceOutputEnabled (store w)) true)
       (trace w ++
          [SetMessagesAppend (user_message t now); SetTimeoutScroll 100;
           SetManualText ""; SetIsSending true;
           Fetch "http://192.168.0.189:8000/ask" "POST" "application/json" t
                 "gpt-3.5-turbo"])).
Proof.
  intros Hb t. subst t. unfold handleSend.
  destruct (trim_nonblank _ Hb) as (c & t & E & _). rewrite E.
  run_js. cbn [String.eqb]. flatten_trace. reflexivity.
Qed.

Lemma handleSend_dispatches_witness :
  let r := mkState [] false "  what time is it " true false in
  fst (handleSend r 1000 (mkWorld r [])) =
    Ok (Some (mkPending r "what time is it")) /\
  messages (store (snd (handleSend r 1000 (mkWorld r [])))) =
    [mkMessage "1000" (VStr "what time is it") user].
Proof.
  cbv zeta.
  rewrite (handleSend_dispatches (mkState [] false "  what time is it " true false)
             1000 (mkWorld (mkState [] false "  what time is it " true false) [])
             eq_refl).
  split; reflexivity.
Defined.

(** X7.  A prompt that [handleSend] sends is never empty and neither
    starts nor ends with white space; trimming it again changes
    nothing. *)
Theorem handleSend_prompt_trimmed (r s : State) (now : Z) (t : string) :
  In t (fetches (calls (handleSend r now) s)) ->
  t <> "" /\ starts_ws t = false /\ ends_ws t = false /\ trim t = t.
Proof.
  unfold handleSend. destruct (blank (manualText r)) eqn:Hb.
  - rewrite (trim_blank _ Hb). cbn. contradiction.
  - destruct (trim_nonblank _ Hb) as (c & u & E & Hc).
    pose proof (starts_ws_trim (manualText r)) as Hst.
    pose proof (ends_ws_trimEnd (trimStart (manualText r))) as Hen.
    fold (trim (manualText r)) in Hen. rewrite E in *.
    run_js. cbn [String.eqb]. cbn. intros [<-|[]].
    split; [discriminate|]. split; [exact Hst|]. split; [exact Hen|].
    unfold trim. rewrite (trimStart_fixed _ Hst). apply trimEnd_fixed, Hen.
Qed.

Lemma handleSend_prompt_trimmed_witness :
  let r := mkState [] false "  what time is it " false false in
  In "what time is it" (fetches (calls (handleSend r 1000) initial)) /\
  starts_ws "what time is it" = false /\
  trim "what time is it" = "what time is it".
Proof.
  cbv zeta. split; [left; reflexivity|].
  pose proof (handleSend_prompt_trimmed
                (mkState [] false "  what time is it " false false) initial 1000
                "what time is it" (or_introl eq_refl)) as H.
  split; [exact (proj1 (proj2 H)) | exact (proj2 (proj2 (proj2 H)))].
Defined.

(* ------------------------------------------------------------------ *)
(** ** Settling *)

(** X12.  When the body parses and its [answer] is truthy, the answer is
    appended verbatim as an [llm] message stamped with the clock; it is
    passed to [Tts.speak] exactly when the dispatching render had voice
    output on; then [isSending] is reset.  No dialog is shown, and the
    status and the store's own [voiceOutputEnabled] play no part. *)
Theorem settle_truthy_answer (r : State) (w : World) (response : Response)
    (now : Z) (data v : value) :
  json response = Ok data ->
  get_prop data "answer" = Some v ->
  truthy v = true ->
  exec (sendToBackend_settle r (Ok response) now) w =
  mkWorld
    (mkState (messages (store w) ++ [mkMessage (toString now) v llm])
             (isListening (store w)) (manualText (store w))
             (voiceOutputEnabled (store w)) false)
    (trace w ++
       [SetMessagesAppend (mkMessage (toString now) v llm); SetTimeoutScroll 100] ++
       (if voiceOutputEnabled r then [TtsSpeak v] else []) ++
       [SetIsSending false]).
Proof.
  intros Hj Hg Ht. run_js. rewrite Hj, Hg. cbv beta iota. rewrite Ht.
  destruct (voiceOutputEnabled r); flatten_trace; reflexivity.
Qed.

Lemma settle_truthy_answer_witness :
  let r := mkState [] false "" true true in
  let w := mkWorld (mkState [] false "next" false true) [] in
  exec (sendToBackend_settle r (answers "It is noon.") 2000) w =
  mkWorld
    (mkState [mkMessage "2000" (VStr "It is noon.") llm] false "next" false false)
    [SetMessagesAppend (mkMessage "2000" (VStr "It is noon.") llm);
     SetTimeoutScroll 100; TtsSpeak (VStr "It is noon."); SetIsSending false].
Proof.
  cbv zeta.
  exact (settle_truthy_answer (mkState [] false "" true true)
           (mkWorld (mkState [] false "next" false true) [])
           (mkResponse 200 (Ok (VObj [("answer", VStr "It is noon.")]))) 2000
           (VObj [("answer", VStr "It is noon.")]) (VStr "It is noon.")
           eq_refl eq_refl eq_refl).
Defined.

(** X13.  A settling request, however it ends, leaves the text input,
    [isListening] and [voiceOutputEnabled] as they are, adds at most one
    message (from [llm]) at the end of the transcript, and makes no
    further request: nothing is retried. *)
Theorem settle_keeps_other_cells (sn : Session) (k : nat) (res : FetchResult)
    (now : Z) :
  let s := store (world sn) in
  let sn' := step sn (FetchSettles k res now) in
  let s' := store (world sn') in
  manualText s' = manualText s /\
  isListening s' = isListening s /\
  voiceOutputEnabled s' = voiceOutputEnabled s /\
  (messages s' = messages s \/
   exists v, messages s' = messages s ++ [mkMessage (toString now) v llm]) /\
  fetches (trace (world sn')) = fetches (trace (world sn)).
Proof.
  destruct sn as [w fl]. cbv zeta. cbn [step world inflight].
  destruct (nth_error fl k) as [p|]; [|repeat split; auto].
  destruct (settle_shape (p_render p) res now w) as (ms & evs & E & Hms & _ & Hf).
  unfold exec. rewrite E.
  cbn [snd world store trace messages manualText isListening voiceOutputEnabled].
  rewrite fetches_app, Hf, app_nil_r.
  split; [reflexivity|]. split; [reflexivity|]. split; [reflexivity|].
  split; [|reflexivity].
  destruct Hms as [->|[v ->]]; [left; apply app_nil_r | right; exists v; reflexivity].
Qed.

(** X14.  When the body parses to something that has no [answer] (an
    object without that key, an array, a string, a number, a boolean)
    the fixed message "No response from LLM." is appended from [llm],
    nothing is spoken and no dialog is shown. *)
Theorem settle_without_answer_falls_back (r : State) (w : World)
    (response : Response) (now : Z) (data : value) :
  json response = Ok data ->
  match data with
  | VUndefined | VNull => False
  | VObj props => lookup_prop "answer" props = None
  | _ => True
  end ->
  let fallback := mkMessage (toString now) (VStr "No response from LLM.") llm in
  exec (sendToBackend_settle r (Ok response) now) w =
  mkWorld
    (mkState (messages (store w) ++ [fallback]) (isListening (store w))
             (manualText (store w)) (voiceOutputEnabled (store w)) false)
    (trace w ++ [SetMessagesAppend fallback; SetTimeoutScroll 100;
                 SetIsSending false]).
Proof.
  intros Hj Hd fallback. subst fallback. run_js. rewrite Hj.
  destruct data as [| |b|n|s|items|props]; try contradiction; cbv [get_prop];
    rewrite ?Hd; cbv beta iota; cbn [truthy]; flatten_trace; reflexivity.
Qed.

Lemma settle_without_answer_falls_back_witness :
  let r := mkState [] false "" true true in
  let body := VObj [("error", VStr "model overloaded")] in
  messages (store (exec (sendToBackend_settle r (Ok (mkResponse 200 (Ok body))) 2000)
                        (mkWorld r []))) =
    [mkMessage "2000" (VStr "No response from LLM.") llm].
Proof.
  cbv zeta.
  rewrite (settle_without_answer_falls_back (mkState [] false "" true true)
             (mkWorld (mkState [] false "" true true) [])
             (mkResponse 200 (Ok (VObj [("error", VStr "model overloaded")]))) 2000
             (VObj [("error", VStr "model overloaded")]) eq_refl eq_refl).
  reflexivity.
Defined.

(* ------------------------------------------------------------------ *)
(** ** Sessions *)

(** X8.  In every session the screen can reach, at most one request is in
    flight, and one is in flight exactly while [isSending] is true (that
    is, while the send button is disabled). *)
Theorem one_request_in_flight (inputs : list Input) :
  let sn := run start inputs in
  length (inflight sn) =
    (if sendButton_disabled (store (world sn)) then 1 else 0)%nat.
Proof.
  cbv zeta. unfold sendButton_disabled.
  destruct (consistent_run inputs start consistent_start)
    as ([[-> ->]|(p & -> & -> & _)] & _); reflexivity.
Qed.

(** X9.  The transcript only grows at its end: after any inputs, from any
    session, the earlier transcript is a prefix of the later one, and at
    most one message was added per input. *)
Theorem transcript_append_only (inputs : list Input) (sn : Session) :
  exists added : list Message,
    messages (store (world (run sn inputs))) =
      messages (store (world sn)) ++ added /\
    (length added <= length inputs)%nat.
Proof.
  revert sn. induction inputs as [|i inputs IH]; intros sn.
  - exists []. rewrite app_nil_r. split; [reflexivity | apply le_n].
  - destruct (IH (step sn i)) as (added & E & Hlen).
    change (run sn (i :: inputs)) with (run (step sn i) inputs). rewrite E.
    destruct (step_cases sn i) as
      [(Em & _)
      |[(now & _ & _ & _ & Em & _)
       |(k & res & now & p & ms & _ & _ & Em & Hms & _)]]; rewrite Em.
    + exists added. split; [reflexivity|]. cbn [length]. lia.
    + eexists. rewrite <- app_assoc. split; [reflexivity|]. cbn [length app]. lia.
    + eexists. rewrite <- app_assoc. split; [reflexivity|].
      rewrite length_app. cbn [length].
      destruct Hms as [->|[v ->]]; cbn [length]; lia.
Qed.

(** X10.  In every reachable session an [llm] message is never first in
    the transcript and never follows another [llm] message: the message
    right before it is from [user]. *)
Theorem answers_come_after_questions (inputs : list Input) (n : nat)
    (m : Message) :
  nth_error (messages (store (world (run start inputs)))) n = Some m ->
  sender m = llm ->
  exists j q,
    n = S j /\
    nth_error (messages (store (world (run start inputs)))) j = Some q /\
    sender q = user.
Proof.
  intros Hn Hm.
  destruct (consistent_run inputs start consistent_start) as (_ & Hq & _).
  pose proof (answers_follow_questions_nth _ false n m Hq Hn Hm) as H.
  destruct n as [|j]; [discriminate|].
  destruct H as (q & Hj & Hu). exists j, q. auto.
Qed.

Lemma answers_come_after_questions_witness :
  exists j q,
    1%nat = S j /\
    nth_error (messages (store (world (run start
      [ChangeText "hi"; PressSend 1000; FetchSettles 0 (answers "hello") 2000])))) j
      = Some q /\
    sender q = user.
Proof.
  exact (answers_come_after_questions
           [ChangeText "hi"; PressSend 1000; FetchSettles 0 (answers "hello") 2000]
           1 (mkMessage "2000" (VStr "hello") llm) eq_refl eq_refl).
Defined.

(** X11.  In every reachable session the prompts posted to the service
    are, one for one and in order, the texts of the [user] messages of
    the transcript: each question is sent once and never again. *)
Theorem prompts_are_user_texts (inputs : list Input) :
  let sn := run start inputs in
  map VStr (fetches (trace (world sn))) = user_texts (messages (store (world sn))).
Proof.
  cbv zeta.
  exact (proj2 (proj2 (consistent_run inputs start consistent_start))).
Qed.

(** X15.  [isListening] is written by the recognition engine's start, end
    and error events only: no press, no typing, no results event and no
    settling request changes it. *)
Theorem listening_changes_by_engine_only (inputs : list Input) (sn : Session) :
  forallb (fun i => negb (engine_event i)) inputs = true ->
  isListening (store (world (run sn inputs))) = isListening (store (world sn)).
Proof.
  revert sn. induction inputs as [|i inputs IH]; intros sn H; [reflexivity|].
  cbn [forallb] in H. apply andb_true_iff in H as [Hi H].
  change (run sn (i :: inputs)) with (run (step sn i) inputs).
  rewrite (IH _ H). apply step_listening. now apply negb_true_iff.
Qed.

Lemma listening_changes_by_engine_only_witness :
  isListening (store (world (run start
    [PressMic (mkMicEnv "android" GRANTED (Ok tt) (Ok tt)); ChangeText "hi";
     PressSend 1000; SpeechResults (mkResults (Some ["next"]));
     FetchSettles 0 (answers "hello") 2000]))) = false.
Proof.
  exact (listening_changes_by_engine_only
           [PressMic (mkMicEnv "android" GRANTED (Ok tt) (Ok tt)); ChangeText "hi";
            PressSend 1000; SpeechResults (mkResults (Some ["next"]));
            FetchSettles 0 (answers "hello") 2000] start eq_refl).
Defined.

(** X16.  [voiceOutputEnabled] is flipped by each press of the speaker
    button and written by nothing else: after any inputs it is the
    earlier value if the button was pressed an even number of times, its
    negation otherwise. *)
Theorem voice_output_counts_presses (inputs : list Input) (sn : Session) :
  voiceOutputEnabled (store (world (run sn inputs))) =
  xorb (voiceOutputEnabled (store (world sn)))
       (Nat.odd (length (filter is_speaker_press inputs))).
Proof.
  revert sn. induction inputs as [|i inputs IH]; intros sn.
  - cbn. now rewrite xorb_false_r.
  - change (run sn (i :: inputs)) with (run (step sn i) inputs).
    rewrite IH, step_voice. cbn [filter].
    destruct (is_speaker_press i); cbn [length].
    + rewrite Nat.odd_succ, <- Nat.negb_odd.
      destruct (voiceOutputEnabled _), (Nat.odd _); reflexivity.
    + now rewrite xorb_false_r.
Qed.

(** X17.  When the clock readings of the inputs, taken in order, strictly
    increase, the ids of the transcript are pairwise distinct, and they
    are the decimal renderings of a strictly increasing list of
    readings. *)
Theorem ids_distinct_when_clock_advances (inputs : list Input) :
  StronglySorted Z.lt (readings inputs) ->
  let ids := map id (messages (store (world (run start inputs)))) in
  NoDup ids /\
  exists ns, ids = map toString ns /\ StronglySorted Z.lt ns.
Proof.
  intros Hs ids. subst ids.
  destruct (run_ids inputs start [] eq_refl Hs) as (ns & E & Hns).
  split; [|exists ns; auto].
  rewrite E. apply NoDup_map_toString, sorted_lt_NoDup, Hns.
Qed.

Lemma ids_distinct_when_clock_advances_witness :
  NoDup (map id (messages (store (world (run start
    [ChangeText "hi"; PressSend 1000; FetchSettles 0 (answers "hello") 1001]))))).
Proof.
  refine (proj1 (ids_distinct_when_clock_advances
            [ChangeText "hi"; PressSend 1000; FetchSettles 0 (answers "hello") 1001]
            _)).
  cbn. repeat constructor.
Defined.

(** X18.  No message of a reachable transcript has an empty text: every
    text is truthy.  A question is appended only from a non-blank buffer,
    an answer only when it is truthy, and the fallback text is a fixed
    non-empty string. *)
Theorem transcript_texts_truthy (inputs : list Input) (m : Message) :
  In m (messages (store (world (run start inputs)))) ->
  truthy (text m) = true /\ text m <> VStr "".
Proof.
  assert (H : forall (l : list Input) (sn : Session),
             Forall (fun m => truthy (text m) = true) (messages (store (world sn))) ->
             Forall (fun m => truthy (text m) = true)
                    (messages (store (world (run sn l))))).
  { induction l as [|i l IH]; intros sn Hsn; [exact Hsn|].
    change (run sn (i :: l)) with (run (step sn i) l). apply IH.
    destruct (step_added_truthy sn i) as (ms & E & Hms). rewrite E.
    apply Forall_app. split; assumption. }
  intros Hin. specialize (H inputs start (Forall_nil _)).
  rewrite Forall_forall in H. specialize (H m Hin).
  split; [exact H|]. intros E. rewrite E in H. discriminate.
Qed.

Lemma transcript_texts_truthy_witness :
  truthy (VStr "No response from LLM.") = true /\
  VStr "No response from LLM." <> VStr "".
Proof.
  refine (transcript_texts_truthy
            [ChangeText "hi"; PressSend 1000;
             FetchSettles 0 (answers "") 2000]
            (mkMessage "2000" (VStr "No response from LLM.") llm) _).
  right. left. reflexivity.
Defined.
